(** * GoogleAppBuilderAPIWrapper: a shallow embedding

    Source: [src/langchain/utilities/google_appbuilder_api.py].

    The wrapper sends one search request, decodes the JSON answer and turns
    it into a numbered text summary.  The Python code is dynamically typed,
    so the embedding works on a type [value] of the Python objects that
    [json.loads] can produce, and every operation that Python would reject
    at run time raises an exception of the model.  Output ([print],
    [logging.error]) and the outgoing HTTP request are recorded as a trace
    of events. *)

From Stdlib Require Import String Ascii List ZArith Lia Bool Arith DecimalString.
Import ListNotations.
Open Scope string_scope.
Set Warnings "-register-all".

(* ------------------------------------------------------------------ *)
(** ** Python values *)

(** A character of a [string] stands for one code point below 256, so the
    model covers the Python strings made of Latin-1 code points.  A float is
    carried by the text Python's [repr] gives it, the only thing this
    program ever does with one. *)
Inductive value : Type :=
| VNone
| VBool (b : bool)
| VInt (n : Z)
| VFloat (repr : string)
| VStr (s : string)
| VList (items : list value)
| VDict (entries : list (string * value)).

(** A [dict] is the list of its entries in insertion order; a Python dict
    never holds the same key twice. *)
Definition dict_keys (d : list (string * value)) : list string := map fst d.

Definition wf_dict (d : list (string * value)) : Prop := NoDup (dict_keys d).

Fixpoint dict_lookup (key : string) (d : list (string * value)) : option value :=
  match d with
  | [] => None
  | (k, v) :: rest => if String.eqb k key then Some v else dict_lookup key rest
  end.

Definition is_none (v : value) : bool :=
  match v with VNone => true | _ => false end.

Section ValueInduction.
Variable P : value -> Prop.
Hypothesis HNone : P VNone.
Hypothesis HBool : forall b, P (VBool b).
Hypothesis HInt : forall n, P (VInt n).
Hypothesis HFloat : forall r, P (VFloat r).
Hypothesis HStr : forall s, P (VStr s).
Hypothesis HList : forall l, Forall P l -> P (VList l).
Hypothesis HDict : forall d, Forall (fun kv => P (snd kv)) d -> P (VDict d).

Fixpoint value_nested_ind (v : value) : P v :=
  match v with
  | VNone => HNone
  | VBool b => HBool b
  | VInt n => HInt n
  | VFloat r => HFloat r
  | VStr s => HStr s
  | VList l =>
      HList l ((fix go (l : list value) : Forall P l :=
                  match l with
                  | [] => Forall_nil P
                  | x :: t => Forall_cons x (value_nested_ind x) (go t)
                  end) l)
  | VDict d =>
      HDict d ((fix go (d : list (string * value))
                : Forall (fun kv => P (snd kv)) d :=
                  match d with
                  | [] => Forall_nil _
                  | kv :: t =>
                      Forall_cons (P := fun kv => P (snd kv)) kv
                        (value_nested_ind (snd kv)) (go t)
                  end) d)
  end.
End ValueInduction.

(* ------------------------------------------------------------------ *)
(** ** Text helpers *)

(** The newline character, written [\n] in the Python source. *)
Definition LF : string := String "010"%char EmptyString.

(** Python's [needle in hay] on two strings. *)
Fixpoint str_in (needle hay : string) : bool :=
  if String.prefix needle hay then true
  else match hay with
       | EmptyString => false
       | String _ rest => str_in needle rest
       end.

(** [str(n)] for a non-negative and for an arbitrary integer. *)
Definition dec_nat (n : nat) : string := NilZero.string_of_uint (Nat.to_uint n).
Definition dec_Z (n : Z) : string := NilZero.string_of_int (Z.to_int n).

Definition hex_digit (n : nat) : ascii :=
  if (n <? 10)%nat then ascii_of_nat (48 + n) else ascii_of_nat (87 + n).

Definition hex2 (n : nat) : string :=
  String (hex_digit (n / 16)) (String (hex_digit (n mod 16)) EmptyString).

Definition backslash : ascii := "092"%char.
Definition squote : ascii := "039"%char.
Definition dquote : ascii := "034"%char.

Fixpoint has_char (c : ascii) (s : string) : bool :=
  match s with
  | EmptyString => false
  | String a rest => Ascii.eqb a c || has_char c rest
  end.

(** [repr] of a string, as CPython's [unicode_repr] computes it: single
    quotes unless the text holds a single quote and no double quote; the
    quote and the backslash are escaped, tab, newline and carriage return
    get their letter, and the code points that are not printable (below 32,
    127 to 160, 173) are written [\xNN]. *)
Definition repr_char (quote c : ascii) : string :=
  let n := nat_of_ascii c in
  if Ascii.eqb c quote || Ascii.eqb c backslash then String backslash (String c EmptyString)
  else if (n =? 9)%nat then String backslash "t"
  else if (n =? 10)%nat then String backslash "n"
  else if (n =? 13)%nat then String backslash "r"
  else if (n <? 32)%nat || (n =? 127)%nat then String backslash ("x" ++ hex2 n)
  else if (n <? 127)%nat then String c EmptyString
  else if (n <? 161)%nat || (n =? 173)%nat then String backslash ("x" ++ hex2 n)
  else String c EmptyString.

Fixpoint repr_chars (quote : ascii) (s : string) : string :=
  match s with
  | EmptyString => EmptyString
  | String c rest => repr_char quote c ++ repr_chars quote rest
  end.

Definition repr_str (s : string) : string :=
  let quote := if has_char squote s && negb (has_char dquote s) then dquote else squote in
  String quote (repr_chars quote s ++ String quote EmptyString).

(** [repr(v)] and [str(v)]; [f"{v}"] is [str(v)] for all these types. *)
Fixpoint py_repr (v : value) : string :=
  match v with
  | VNone => "None"
  | VBool true => "True"
  | VBool false => "False"
  | VInt n => dec_Z n
  | VFloat r => r
  | VStr s => repr_str s
  | VList l => "[" ++ String.concat ", " (map py_repr l) ++ "]"
  | VDict d =>
      "{" ++ String.concat ", "
               (map (fun kv => repr_str (fst kv) ++ ": " ++ py_repr (snd kv)) d)
          ++ "}"
  end.

Definition py_str (v : value) : string :=
  match v with
  | VStr s => s
  | _ => py_repr v
  end.

(** [json.dumps(v)] with its default settings ([ensure_ascii], separators
    [", "] and [": "]). *)
Definition json_char (c : ascii) : string :=
  let n := nat_of_ascii c in
  if Ascii.eqb c dquote || Ascii.eqb c backslash then String backslash (String c EmptyString)
  else if (n =? 8)%nat then String backslash "b"
  else if (n =? 12)%nat then String backslash "f"
  else if (n =? 10)%nat then String backslash "n"
  else if (n =? 13)%nat then String backslash "r"
  else if (n =? 9)%nat then String backslash "t"
  else if (n <? 32)%nat || (126 <? n)%nat then String backslash ("u00" ++ hex2 n)
  else String c EmptyString.

Fixpoint json_chars (s : string) : string :=
  match s with
  | EmptyString => EmptyString
  | String c rest => json_char c ++ json_chars rest
  end.

Definition json_str (s : string) : string :=
  String dquote (json_chars s ++ String dquote EmptyString).

Fixpoint json_dumps (v : value) : string :=
  match v with
  | VNone => "null"
  | VBool true => "true"
  | VBool false => "false"
  | VInt n => dec_Z n
  | VFloat r =>
      if String.eqb r "nan" then "NaN"
      else if String.eqb r "inf" then "Infinity"
      else if String.eqb r "-inf" then "-Infinity"
      else r
  | VStr s => json_str s
  | VList l => "[" ++ String.concat ", " (map json_dumps l) ++ "]"
  | VDict d =>
      "{" ++ String.concat ", "
               (map (fun kv => json_str (fst kv) ++ ": " ++ json_dumps (snd kv)) d)
          ++ "}"
  end.

(* ------------------------------------------------------------------ *)
(** ** Exceptions and output *)

Inductive exn : Type := AttributeError | TypeError | KeyError | IndexError.

Record request : Type := mkRequest {
  req_url : string;
  req_data : string;
  req_headers : list (string * string)
}.

(** What a call leaves behind besides its result: a line on standard
    output, a line made of a fixed text and the message of an exception
    (printed or given to [logging.error]), and the request posted. *)
Inductive event : Type :=
| Print (line : string)
| PrintExn (text : string) (e : exn)
| LogError (text : string) (e : exn)
| HttpPost (r : request).

(** A computation ends with an exception or a result, and has produced a
    trace of events either way. *)
Definition M (A : Type) : Type := ((exn + A) * list event)%type.

Definition ret {A} (a : A) : M A := (inr a, []).

Definition raise {A} (e : exn) : M A := (inl e, []).

Definition bind {A B} (m : M A) (f : A -> M B) : M B :=
  match m with
  | (inl e, out) => (inl e, out)
  | (inr a, out) => let (r, out') := f a in (r, (out ++ out')%list)
  end.

(** [try: m except Exception as e: handler e]. *)
Definition try_except {A} (m : M A) (handler : exn -> M A) : M A :=
  match m with
  | (inl e, out) => let (r, out') := handler e in (r, (out ++ out')%list)
  | (inr a, out) => (inr a, out)
  end.

Definition emit (ev : event) : M unit := (inr tt, [ev]).

Declare Scope py_scope.
Delimit Scope py_scope with py.
Notation "x <- c1 ;; c2" := (bind c1 (fun x => c2))
  (at level 61, c1 at next level, right associativity) : py_scope.
Notation "c1 ;; c2" := (bind c1 (fun _ => c2))
  (at level 61, right associativity) : py_scope.
Open Scope py_scope.

Definition outcome {A} (m : M A) : exn + A := fst m.
Definition trace {A} (m : M A) : list event := snd m.

Section Loops.
Context {A B S : Type}.

(** [for x in l: s = body x s]. *)
Fixpoint for_each (l : list A) (body : A -> S -> M S) (s : S) : M S :=
  match l with
  | [] => ret s
  | x :: rest => s' <- body x s ;; for_each rest body s'
  end.

Variable f : A -> M B.

(** [ys = []; for x in l: ys.append(f(x))]. *)
Fixpoint for_append (l : list A) : M (list B) :=
  match l with
  | [] => ret []
  | x :: rest => y <- f x ;; ys <- for_append rest ;; ret (y :: ys)
  end.
End Loops.

(* ------------------------------------------------------------------ *)
(** ** Dynamic operations *)

(** [v.get(key, default)]: only a dict has the method. *)
Definition dict_get (v : value) (key : string) (default : value) : M value :=
  match v with
  | VDict d => match dict_lookup key d with
               | Some x => ret x
               | None => ret default
               end
  | _ => raise AttributeError
  end.

(** [d[key]] on a dict. *)
Definition dict_getitem (d : list (string * value)) (key : string) : M value :=
  match dict_lookup key d with
  | Some x => ret x
  | None => raise KeyError
  end.

(** [a + b] where one operand is known to be a [str]: Python concatenates
    two strings and rejects every other pairing with a [TypeError]. *)
Definition add_str (a b : value) : M value :=
  match a, b with
  | VStr x, VStr y => ret (VStr (x ++ y))
  | _, _ => raise TypeError
  end.

Fixpoint strs_of (l : list value) : option (list string) :=
  match l with
  | [] => Some []
  | VStr s :: rest => option_map (cons s) (strs_of rest)
  | _ :: _ => None
  end.

(** [sep.join(values)]: every item has to be a [str]. *)
Definition str_join (sep : string) (values : list value) : M string :=
  match strs_of values with
  | Some ss => ret (String.concat sep ss)
  | None => raise TypeError
  end.

(** [len(v)]. *)
Definition py_len (v : value) : M nat :=
  match v with
  | VList l => ret (List.length l)
  | VDict d => ret (List.length d)
  | VStr s => ret (String.length s)
  | _ => raise TypeError
  end.

(** [id == i]: [id] is the built-in function, which is equal to no
    integer, so the comparison is [False] whatever [i] is. *)
Definition builtin_id_eq (i : nat) : bool := false.

(** [v[b]] for a non-empty [v] and a [bool] subscript [b].  A [bool] is
    an integer, so a list or a string is indexed at [0] or [1]; on a dict
    decoded from JSON, whose keys are all strings, the key is absent. *)
Definition subscript_bool (v : value) (b : bool) : M value :=
  let i := if b then 1 else 0 in
  match v with
  | VList l => match nth_error l i with
               | Some x => ret x
               | None => raise IndexError
               end
  | VStr s => match String.get i s with
              | Some c => ret (VStr (String c EmptyString))
              | None => raise IndexError
              end
  | VDict _ => raise KeyError
  | _ => raise TypeError
  end.

(* ------------------------------------------------------------------ *)
(** ** The formatting methods *)

(** [f"{formatted_details} \n {key} : {value}"]. *)
Definition add_line (formatted_details key : string) (v : value) : string :=
  formatted_details ++ " " ++ LF ++ " " ++ key ++ " : " ++ py_str v.

(** One turn of the loop over the keys of a dict in [format_array]. *)
Definition format_dict_step (appbuilder_details : list (string * value))
    (key formatted_details : string) : M string :=
  value <- dict_getitem appbuilder_details key ;;
  match value with
  | VStr s =>
      if str_in "http" s then
        emit (Print s) ;; ret formatted_details
      else
        ret (add_line formatted_details key value)
  | _ =>
      ret (add_line formatted_details key value)
  end.

(** The [dict] branch of [format_array], inside its [try]. *)
Definition format_dict (appbuilder_details : list (string * value)) : M string :=
  let formatted_details := EmptyString in
  let keys := dict_keys appbuilder_details in
  for_each keys (format_dict_step appbuilder_details) formatted_details.

(** [format_array]: a string is returned as it is, a dict gives one text
    per entry, a list the comma-joined results of its items, anything else
    the empty string.  The handler of the [try] prints and returns the
    argument.  The exceptions of the model are those the statements of the
    body raise on the values they are given (the look-up, the join); what
    the interpreter can raise besides, at its recursion limit or when
    [print] cannot write a text, is outside the model. *)
Fixpoint format_array (appbuilder_details : value) : M value :=
  try_except
    (match appbuilder_details with
     | VStr _ => ret appbuilder_details
     | VDict d =>
         formatted_details <- format_dict d ;;
         ret (VStr formatted_details)
     | VList l =>
         values <- for_append format_array l ;;
         joined <- str_join ", " values ;;
         ret (VStr joined)
     | _ => ret (VStr EmptyString)
     end)
    (fun e => emit (PrintExn "ERROR format_array  " e) ;; ret appbuilder_details).

Definition format_appbuilder_details (appbuilder_details : value) : M value :=
  try_except
    (title <- dict_get appbuilder_details "title" (VStr EmptyString) ;;
     left <- add_str title (VStr (" " ++ LF ++ " ")) ;;
     body <- format_array appbuilder_details ;;
     formatted_details <- add_str left body ;;
     ret formatted_details)
    (fun e =>
       emit (LogError "An error occurred while formatting appbuilder details: " e) ;;
       ret VNone).

Definition fetch_appbuilder_details (prediction : value) : M value :=
  try_except
    (document <- dict_get prediction "document" (VDict []) ;;
     derivedStructData <- dict_get document "derivedStructData" (VDict []) ;;
     format_appbuilder_details derivedStructData)
    (fun e =>
       emit (LogError "An Error occurred while fetching appbuilder details: " e) ;;
       ret VNone).

(* ------------------------------------------------------------------ *)
(** ** The search *)

Fixpoint enumerate_from {A} (i : nat) (l : list A) : list (nat * A) :=
  match l with
  | [] => []
  | x :: rest => (i, x) :: enumerate_from (S i) rest
  end.

Definition enumerate {A} (l : list A) : list (nat * A) := enumerate_from 0 l.

Definition no_results : string :=
  "Google appbuilders did not find any appbuilders that match the description".

Definition indent : string := "                ".

(** The triple-quoted f-string that [run] returns. *)
Definition template_head : string :=
  LF ++ indent ++ "thought: I have find: " ++ LF ++ indent.

Definition template_tail : string :=
  LF ++ indent ++ "action: summarize answer and provide url link " ++ LF
     ++ indent ++ "action_input:  ".

Definition template (answer : string) : string :=
  template_head ++ answer ++ template_tail.

(** [answer = "\n".join(...)] followed by the cut at 1024 characters. *)
Definition numbered (appbuilders : list value) : string :=
  String.concat LF
    (map (fun p => dec_nat (fst p + 1) ++ ". " ++ py_str (snd p)) (enumerate appbuilders)).

Definition cut (answer : string) : string :=
  if (1024 <? String.length answer)%nat then String.substring 0 1024 answer else answer.

Section Wrapper.
(** The configured endpoint, the token [get_token] obtains, and the
    service: the object [json.loads] decodes from the text answered to a
    request. *)
Variable gappbuilders_ds_url : string.
Variable get_token : string.
Variable backend : request -> value.

Definition requests_post (r : request) : M value :=
  (inr (backend r), [HttpPost r]).

Definition request_data (query : string) : value :=
  let num_to_return := 2%Z in
  let page_size := num_to_return in
  VDict [("query", VStr query);
         ("page_size", VStr (py_str (VInt page_size)));
         ("offset", VInt 0)].

Definition request_of (query : string) : request :=
  let token := get_token in
  let headers :=
    [("Authorization", "Bearer " ++ token);
     ("Content-Type", "application/json; charset=UTF-8")] in
  mkRequest gappbuilders_ds_url (json_dumps (request_data query)) headers.

(** The loop of [run] over [range(num_to_return)]. *)
Definition collect (search_results : value) (num_to_return : nat) : M (list value) :=
  for_each (seq 0 num_to_return)
    (fun i appbuilders =>
       result <- subscript_bool search_results (builtin_id_eq i) ;;
       details <- fetch_appbuilder_details result ;;
       if negb (is_none details) then ret (appbuilders ++ [details])%list
       else ret appbuilders)
    [].

Definition run (query : string) : M string :=
  search_results <- requests_post (request_of query) ;;
  search_results <- dict_get search_results "results" (VDict []) ;;
  num_to_return <- py_len search_results ;;
  emit (Print ("num_to_return:" ++ dec_nat num_to_return)) ;;
  if (num_to_return =? 0)%nat then ret no_results
  else
    appbuilders <- collect search_results num_to_return ;;
    let answer := numbered appbuilders in
    let answer := cut answer in
    ret (template answer).
End Wrapper.

(* ------------------------------------------------------------------ *)
(** ** Vocabulary of the statements *)

(** [quiet m]: no request is posted while [m] runs. *)
Definition not_post (ev : event) : Prop :=
  match ev with HttpPost _ => False | _ => True end.

Definition quiet {A} (m : M A) : Prop := Forall not_post (trace m).

(** A call answered by [None] or by a text, never by an exception. *)
Definition none_or_text (m : M value) : Prop :=
  exists v out, m = (inr v, out) /\ (v = VNone \/ exists s, v = VStr s).

(** What one entry of a dict adds to the text [format_array] returns, and
    what it prints. *)
Definition is_link (v : value) : bool :=
  match v with
  | VStr s => str_in "http" s
  | _ => false
  end.

Definition entry_text (kv : string * value) : string :=
  if is_link (snd kv) then EmptyString
  else " " ++ LF ++ " " ++ fst kv ++ " : " ++ py_str (snd kv).

Definition entry_prints (kv : string * value) : list event :=
  if is_link (snd kv) then [Print (py_str (snd kv))] else [].

Fixpoint concat_texts (l : list string) : string :=
  match l with
  | [] => EmptyString
  | x :: rest => x ++ concat_texts rest
  end.


(** A result record in the expected shape. *)
Definition record_of (derivedStructData : value) : value :=
  VDict [("document", VDict [("derivedStructData", derivedStructData)])].

Definition response_of (results : value) : value :=
  VDict [("results", results)].

Definition get_or (d : list (string * value)) (key : string) (default : value) : value :=
  match dict_lookup key d with
  | Some x => x
  | None => default
  end.

(** The records [fetch_appbuilder_details] can format: the record, its
    [document] and its [derivedStructData] are dicts (an absent one counts
    as the empty dict) and the [title], when present, is a string. *)
Definition well_shaped (prediction : value) : bool :=
  match prediction with
  | VDict d =>
      match get_or d "document" (VDict []) with
      | VDict doc =>
          match get_or doc "derivedStructData" (VDict []) with
          | VDict details =>
              match get_or details "title" (VStr EmptyString) with
              | VStr _ => true
              | _ => false
              end
          | _ => false
          end
      | _ => false
      end
  | _ => false
  end.

(** A text between double quotes. *)
Definition quoted (s : string) : string :=
  String dquote (s ++ String dquote EmptyString).

(** The flattening of a value in the words of the specification, for
    comparison with [format_array]: a string as it is, a mapping as the
    newline-joined [key : value] lines with the value flattened in turn, a
    sequence as the comma-joined flattenings, anything else empty. *)
Fixpoint flatten_as_specified (v : value) : string :=
  match v with
  | VStr s => s
  | VDict d =>
      String.concat LF
        (map (fun kv => fst kv ++ " : " ++ flatten_as_specified (snd kv)) d)
  | VList l => String.concat ", " (map flatten_as_specified l)
  | _ => EmptyString
  end.

(** ** Sample inputs *)

Definition titled (title : string) : value :=
  record_of (VDict [("title", VStr title)]).

Definition weather_response : value :=
  response_of
    (VList [record_of (VDict [("title", VStr "Weather API"); ("desc", VStr "hot")])]).

Definition two_results : value :=
  response_of (VList [titled "A"; titled "B"]).

(** Three results, the first without [derivedStructData]. *)
Definition no_struct_data : value := VDict [("document", VDict [])].


Definition long_title : string :=
  concat_texts (repeat "0123456789" 100).

Definition long_response : value :=
  response_of (VList [titled long_title]).

Definition nested_details : value :=
  VDict [("a", VDict [("b", VStr "c")])].

(* ------------------------------------------------------------------ *)
(** ** The validator of the configuration *)

(** [d[key] = v]: the value of a key already there is replaced where it
    stands, a new key is added at the end. *)
Fixpoint dict_setitem (d : list (string * value)) (key : string) (v : value)
  : list (string * value) :=
  match d with
  | [] => [(key, v)]
  | (k, x) :: rest =>
      if String.eqb k key then (k, v) :: rest
      else (k, x) :: dict_setitem rest key v
  end.

Section Validation.
(** [langchain.utils.get_from_dict_or_env], which is not part of this file:
    it answers with a value or raises. *)
Variable get_from_dict_or_env : list (string * value) -> string -> string -> M value.

Definition validate_environment (values : list (string * value))
  : M (list (string * value)) :=
  gappbuilders_ds_url <-
    get_from_dict_or_env values "gappbuilders_ds_url" "GAPP_BUILDER_DS_URL" ;;
  let values := dict_setitem values "gappbuilders_ds_url" gappbuilders_ds_url in
  ret values.
End Validation.

(* ------------------------------------------------------------------ *)
(** ** More vocabulary *)

(** A line written by [print]. *)
Definition is_print (ev : event) : Prop :=
  match ev with Print _ => True | _ => False end.

(** The text [format_array] returns for a value. *)
Definition text_of (v : value) : string :=
  match outcome (format_array v) with
  | inr (VStr s) => s
  | _ => EmptyString
  end.

(** The exception [run] ends with, read off the answer of the service:
    the answer has to be a dict, its [results] (the empty dict when absent)
    must have a length, and a dict with entries cannot be indexed by the
    loop. *)
Definition run_failure (response : value) : option exn :=
  match response with
  | VDict resp =>
      match get_or resp "results" (VDict []) with
      | VList _ | VStr _ | VDict [] => None
      | VDict (_ :: _) => Some KeyError
      | _ => Some TypeError
      end
  | _ => Some AttributeError
  end.

(* ------------------------------------------------------------------ *)
(** * Properties *)

Example py_str_nested :
  py_str (VDict [("b", VStr "c"); ("n", VList [VInt 1; VNone; VBool true])])
  = "{'b': 'c', 'n': [1, None, True]}".
Proof. reflexivity. Qed.

Example repr_str_quotes :
  repr_str ("it" ++ String squote "s") = String dquote ("it" ++ String squote "s" ++ String dquote "").
Proof. reflexivity. Qed.


(** ** The model at work *)

Example format_array_mixed :
  format_array
    (VDict [("name", VStr "api"); ("link", VStr "see http://x");
            ("tags", VList [VStr "x"; VInt 3]); ("n", VInt 7)])
  = (inr (VStr (" " ++ LF ++ " name : api " ++ LF ++ " tags : ['x', 3] "
                ++ LF ++ " n : 7")),
     [Print "see http://x"]).
Proof. reflexivity. Qed.

Example format_array_list :
  format_array (VList [VStr "http://x"; VList [VStr "a"; VInt 1]; VDict [("k", VStr "v")]])
  = ret (VStr ("http://x, a, ,  " ++ LF ++ " k : v")).
Proof. reflexivity. Qed.

Example fetch_not_a_record :
  fetch_appbuilder_details (VStr "x")
  = (inr VNone,
     [LogError "An Error occurred while fetching appbuilder details: " AttributeError]).
Proof. reflexivity. Qed.

Example fetch_title_not_a_string :
  fetch_appbuilder_details (record_of (VDict [("title", VInt 3)]))
  = (inr VNone,
     [LogError "An error occurred while formatting appbuilder details: " TypeError]).
Proof. reflexivity. Qed.

Example run_results_dict :
  outcome (run "u" "t" (fun _ => response_of (VDict [("a", VInt 1)])) "q")
  = inl KeyError.
Proof. reflexivity. Qed.

Example run_answer_not_a_dict :
  outcome (run "u" "t" (fun _ => VList []) "q") = inl AttributeError.
Proof. reflexivity. Qed.

Example run_results_missing :
  outcome (run "u" "t" (fun _ => VDict []) "q") = inr no_results.
Proof. reflexivity. Qed.

(** ** Strings *)

Lemma str_app_assoc (a b c : string) : (a ++ b) ++ c = a ++ (b ++ c).
Proof. induction a as [|x a IH]; simpl; [reflexivity | now rewrite IH]. Qed.

Lemma str_app_nil_r (a : string) : a ++ EmptyString = a.
Proof. induction a as [|x a IH]; simpl; [reflexivity | now rewrite IH]. Qed.

Lemma str_length_app (a b : string) :
  String.length (a ++ b) = String.length a + String.length b.
Proof. induction a as [|x a IH]; simpl; [reflexivity | now rewrite IH]. Qed.

Lemma substring_length_le (m : nat) (s : string) (n : nat) :
  String.length (String.substring n m s) <= m.
Proof.
  revert n m. induction s as [|c s IH]; intros n m.
  - destruct n, m; simpl; lia.
  - destruct n as [|n].
    + destruct m as [|m]; simpl; [lia|]. specialize (IH 0 m). lia.
    + simpl. apply IH.
Qed.

Lemma cut_length (answer : string) : String.length (cut answer) <= 1024.
Proof.
  unfold cut. destruct (Nat.ltb_spec 1024 (String.length answer)).
  - apply substring_length_le.
  - assumption.
Qed.

Lemma template_length (answer : string) :
  String.length (template answer) = 151 + String.length answer.
Proof.
  unfold template. rewrite !str_length_app.
  change (String.length template_head) with 56.
  change (String.length template_tail) with 95. lia.
Qed.

(** ** The monad *)

Lemma bind_inr {A B} (m : M A) (f : A -> M B) a out :
  m = (inr a, out) ->
  bind m f = (outcome (f a), (out ++ trace (f a))%list).
Proof. intros ->. unfold bind, outcome, trace. now destruct (f a). Qed.

Lemma bind_ret {A B} (a : A) (f : A -> M B) : bind (ret a) f = f a.
Proof. unfold bind, ret. now destruct (f a). Qed.

Lemma m_eta {A} (m : M A) : m = (outcome m, trace m).
Proof. now destruct m. Qed.

Lemma quiet_ret {A} (a : A) : quiet (ret a).
Proof. constructor. Qed.

Lemma quiet_raise {A} (e : exn) : quiet (@raise A e).
Proof. constructor. Qed.

Lemma quiet_emit (ev : event) : not_post ev -> quiet (emit ev).
Proof. intros H. now constructor. Qed.

Lemma quiet_bind {A B} (m : M A) (f : A -> M B) :
  quiet m -> (forall a, quiet (f a)) -> quiet (bind m f).
Proof.
  unfold quiet, trace, bind. destruct m as [[e|a] out]; simpl; intros Hm Hf.
  - assumption.
  - specialize (Hf a). destruct (f a) as [r out']. simpl in *.
    apply Forall_app. now split.
Qed.

Lemma quiet_try {A} (m : M A) (h : exn -> M A) :
  quiet m -> (forall e, quiet (h e)) -> quiet (try_except m h).
Proof.
  unfold quiet, trace, try_except. destruct m as [[e|a] out]; simpl; intros Hm Hh.
  - specialize (Hh e). destruct (h e) as [r out']. simpl in *.
    apply Forall_app. now split.
  - assumption.
Qed.

Create HintDb quiet.
#[local] Hint Resolve quiet_ret quiet_raise quiet_emit quiet_bind quiet_try : quiet.
#[local] Hint Extern 1 (not_post _) => exact I : quiet.

Lemma quiet_for_each {A S} (l : list A) (body : A -> S -> M S) :
  (forall x s, quiet (body x s)) -> forall s, quiet (for_each l body s).
Proof.
  intros Hb. induction l as [|x l IH]; intros s; simpl; auto with quiet.
Qed.

Lemma quiet_for_append {A B} (f : A -> M B) (l : list A) :
  Forall (fun x => quiet (f x)) l -> quiet (for_append f l).
Proof.
  induction 1 as [|x l Hx Hl IH]; simpl; auto 6 with quiet.
Qed.

#[local] Hint Resolve quiet_for_each quiet_for_append : quiet.

(** ** Dictionaries *)

Lemma dict_lookup_middle (pre suf : list (string * value)) k v :
  ~ In k (dict_keys pre) -> dict_lookup k (pre ++ (k, v) :: suf) = Some v.
Proof.
  induction pre as [|[k' v'] pre IH]; simpl; intros Hk.
  - now rewrite String.eqb_refl.
  - destruct (String.eqb_spec k' k) as [->|Hne]; [tauto|]. apply IH. tauto.
Qed.

Lemma dict_lookup_in (d : list (string * value)) k :
  In k (dict_keys d) -> exists v, dict_lookup k d = Some v.
Proof.
  induction d as [|[k' v'] d IH]; simpl; intros Hk; [contradiction|].
  destruct (String.eqb_spec k' k) as [->|Hne]; [now eexists|].
  apply IH. destruct Hk; [contradiction | assumption].
Qed.

Lemma wf_dict_middle (pre suf : list (string * value)) k v :
  wf_dict (pre ++ (k, v) :: suf) ->
  ~ In k (dict_keys pre) /\ wf_dict (pre ++ suf).
Proof.
  unfold wf_dict, dict_keys. rewrite !map_app. simpl. intros H.
  split.
  - apply NoDup_remove_2 in H. intros Hin. apply H. apply in_or_app. now left.
  - now apply NoDup_remove_1 in H.
Qed.

(** ** [format_array] on a dict *)

Lemma format_dict_step_eq (d : list (string * value)) k v acc :
  dict_lookup k d = Some v ->
  format_dict_step d k acc = (inr (acc ++ entry_text (k, v)), entry_prints (k, v)).
Proof.
  intros Hk. unfold format_dict_step, dict_getitem. rewrite Hk, bind_ret.
  unfold entry_text, entry_prints, add_line. simpl fst; simpl snd.
  destruct v; try reflexivity.
  simpl is_link. destruct (str_in "http" s).
  - simpl. now rewrite str_app_nil_r.
  - reflexivity.
Qed.

Lemma format_dict_loop (suf pre : list (string * value)) acc :
  wf_dict (pre ++ suf) ->
  for_each (dict_keys suf) (format_dict_step (pre ++ suf)) acc
  = (inr (acc ++ concat_texts (map entry_text suf)), flat_map entry_prints suf).
Proof.
  revert pre acc. induction suf as [|[k v] suf IH]; intros pre acc Hwf.
  - simpl. now rewrite str_app_nil_r.
  - destruct (wf_dict_middle _ _ _ _ Hwf) as [Hk _].
    cbn [dict_keys map fst for_each].
    erewrite bind_inr
      by (apply format_dict_step_eq, dict_lookup_middle, Hk).
    replace (pre ++ (k, v) :: suf)%list with ((pre ++ [(k, v)]) ++ suf)%list in *
      by (now rewrite <- app_assoc).
    fold (dict_keys suf). rewrite (m_eta (for_each _ _ _)) at 1.
    rewrite IH by assumption.
    unfold outcome, trace. cbn [fst snd map concat_texts flat_map].
    now rewrite str_app_assoc.
Qed.

Lemma format_dict_eq (d : list (string * value)) :
  wf_dict d ->
  format_dict d = (inr (concat_texts (map entry_text d)), flat_map entry_prints d).
Proof.
  intros Hwf. unfold format_dict. apply (format_dict_loop d [] EmptyString Hwf).
Qed.

Lemma format_array_dict (d : list (string * value)) :
  wf_dict d ->
  format_array (VDict d)
  = (inr (VStr (concat_texts (map entry_text d))), flat_map entry_prints d).
Proof.
  intros Hwf. cbn [format_array]. rewrite (format_dict_eq d Hwf).
  cbn. now rewrite app_nil_r.
Qed.

(** ** [format_array] never fails and posts nothing *)

Lemma format_dict_total (d : list (string * value)) :
  exists s out, format_dict d = (inr s, out).
Proof.
  unfold format_dict.
  assert (H : forall keys, incl keys (dict_keys d) ->
            forall acc, exists s out,
              for_each keys (format_dict_step d) acc = (inr s, out)).
  { induction keys as [|k keys IH]; intros Hin acc.
    - now exists acc, [].
    - destruct (dict_lookup_in d k) as [v Hv]; [apply Hin; now left|].
      destruct (IH (fun x Hx => Hin x (or_intror Hx)) (acc ++ entry_text (k, v)))
        as (s & out & Hs).
      cbn [for_each]. erewrite bind_inr by (apply format_dict_step_eq, Hv).
      rewrite Hs. now eexists _, _. }
  apply H, incl_refl.
Qed.

Lemma strs_of_map (ss : list string) : strs_of (map VStr ss) = Some ss.
Proof. induction ss as [|s ss IH]; simpl; [reflexivity | now rewrite IH]. Qed.

Lemma for_append_strs {A} (f : A -> M value) (l : list A) :
  Forall (fun x => exists s out, f x = (inr (VStr s), out)) l ->
  exists ss out, for_append f l = (inr (map VStr ss), out).
Proof.
  induction 1 as [|x l (s & out & Hx) _ (ss & out' & IH)].
  - now exists [], [].
  - exists (s :: ss). cbn [for_append]. rewrite Hx, IH. now eexists.
Qed.

Lemma format_array_total (v : value) :
  exists s out, format_array v = (inr (VStr s), out).
Proof.
  induction v as [| | | | |l IH|d _] using value_nested_ind;
    try (now eexists _, _).
  - destruct (for_append_strs format_array l IH) as (ss & out & Hl).
    cbn [format_array]. rewrite Hl. unfold str_join.
    cbn. rewrite strs_of_map. cbn. now eexists _, _.
  - destruct (format_dict_total d) as (s & out & Hd).
    cbn [format_array]. rewrite Hd. now eexists _, _.
Qed.

Lemma quiet_dict_getitem (d : list (string * value)) key : quiet (dict_getitem d key).
Proof. unfold dict_getitem. destruct (dict_lookup key d); auto with quiet. Qed.

Lemma quiet_format_dict_step (d : list (string * value)) key acc :
  quiet (format_dict_step d key acc).
Proof.
  unfold format_dict_step. apply quiet_bind; [apply quiet_dict_getitem|].
  intros [| | | |s| |]; auto with quiet.
  destruct (str_in "http" s); auto with quiet.
Qed.

Lemma quiet_format_dict (d : list (string * value)) : quiet (format_dict d).
Proof. apply quiet_for_each, quiet_format_dict_step. Qed.

Lemma quiet_str_join sep (values : list value) : quiet (str_join sep values).
Proof. unfold str_join. destruct (strs_of values); auto with quiet. Qed.

#[local] Hint Resolve quiet_format_dict quiet_str_join : quiet.

Lemma quiet_format_array (v : value) : quiet (format_array v).
Proof.
  induction v as [| | | | |l IH|d _] using value_nested_ind;
    cbn [format_array]; auto 8 with quiet.
Qed.

(** ** [fetch_appbuilder_details] *)

Ltac answers_none := eexists _, _; split; [reflexivity | now left].

Lemma format_appbuilder_details_returns (x : value) :
  none_or_text (format_appbuilder_details x).
Proof.
  unfold none_or_text, format_appbuilder_details.
  destruct x as [| | | | | |d]; try answers_none.
  destruct (format_array_total (VDict d)) as (body & out & Hb).
  unfold dict_get. destruct (dict_lookup "title" d) as [t|].
  - destruct t; try answers_none.
    rewrite bind_ret. cbn [add_str]. rewrite bind_ret, Hb.
    eexists _, _; split; [reflexivity | right; now eexists].
  - rewrite bind_ret. cbn [add_str]. rewrite bind_ret, Hb.
    eexists _, _; split; [reflexivity | right; now eexists].
Qed.

Lemma fetch_appbuilder_details_returns (prediction : value) :
  none_or_text (fetch_appbuilder_details prediction).
Proof.
  unfold fetch_appbuilder_details.
  destruct prediction as [| | | | | |d];
    try answers_none.
  unfold dict_get at 1.
  assert (H : forall document,
    none_or_text
      (try_except
         (derivedStructData <- dict_get document "derivedStructData" (VDict []) ;;
          format_appbuilder_details derivedStructData)
         (fun e =>
            emit (LogError "An Error occurred while fetching appbuilder details: " e) ;;
            ret VNone))).
  { intros document.
    assert (G : forall x, none_or_text
      (try_except (format_appbuilder_details x)
         (fun e =>
            emit (LogError "An Error occurred while fetching appbuilder details: " e) ;;
            ret VNone))).
    { intros x. destruct (format_appbuilder_details_returns x) as (v & out & Hv & Hc).
      rewrite Hv. now exists v, out. }
    destruct document as [| | | | | |doc];
      try answers_none.
    unfold dict_get. destruct (dict_lookup "derivedStructData" doc);
      rewrite bind_ret; apply G. }
  destruct (dict_lookup "document" d); rewrite bind_ret; apply H.
Qed.

Lemma quiet_dict_get (v : value) key default : quiet (dict_get v key default).
Proof.
  destruct v as [| | | | | |d]; cbn [dict_get]; auto with quiet.
  destruct (dict_lookup key d); auto with quiet.
Qed.

Lemma quiet_add_str (a b : value) : quiet (add_str a b).
Proof. destruct a, b; cbn [add_str]; auto with quiet. Qed.

#[local] Hint Resolve quiet_format_array quiet_dict_get quiet_add_str : quiet.

Lemma quiet_format_appbuilder_details (x : value) :
  quiet (format_appbuilder_details x).
Proof. unfold format_appbuilder_details. auto 12 with quiet. Qed.

#[local] Hint Resolve quiet_format_appbuilder_details : quiet.

Lemma quiet_fetch_appbuilder_details (prediction : value) :
  quiet (fetch_appbuilder_details prediction).
Proof. unfold fetch_appbuilder_details. auto 8 with quiet. Qed.

(** ** The loop of [run] *)

Lemma quiet_subscript_bool (v : value) b : quiet (subscript_bool v b).
Proof.
  destruct v as [| | | |s|l|d]; cbn [subscript_bool]; auto with quiet.
  - destruct (String.get _ s); auto with quiet.
  - destruct (nth_error l _); auto with quiet.
Qed.

Lemma quiet_py_len (v : value) : quiet (py_len v).
Proof. destruct v; cbn [py_len]; auto with quiet. Qed.

#[local] Hint Resolve quiet_fetch_appbuilder_details quiet_subscript_bool
  quiet_py_len : quiet.

Lemma quiet_collect (search_results : value) n : quiet (collect search_results n).
Proof.
  apply quiet_for_each. intros i acc.
  apply quiet_bind; [auto with quiet | intros r].
  apply quiet_bind; [auto with quiet | intros details].
  destruct (negb (is_none details)); auto with quiet.
Qed.

#[local] Hint Resolve quiet_collect : quiet.

(** Every turn of the loop reads the first item of a list: the subscript
    [id == i] is [False]. *)
Lemma collect_turn (r0 : value) (rest : list value) v out i (acc : list value) :
  fetch_appbuilder_details r0 = (inr v, out) ->
  (result <- subscript_bool (VList (r0 :: rest)) (builtin_id_eq i) ;;
   details <- fetch_appbuilder_details result ;;
   if negb (is_none details) then ret (acc ++ [details])%list else ret acc)
  = (inr (if is_none v then acc else (acc ++ [v])%list), (out ++ [])%list).
Proof.
  intros Hv. unfold builtin_id_eq, subscript_bool. cbn [nth_error].
  rewrite bind_ret, Hv. cbn [bind]. destruct (is_none v); reflexivity.
Qed.

Lemma collect_loop (r0 : value) (rest : list value) v out (l : list nat) :
  fetch_appbuilder_details r0 = (inr v, out) ->
  forall acc, exists out',
    for_each l
      (fun i appbuilders =>
         result <- subscript_bool (VList (r0 :: rest)) (builtin_id_eq i) ;;
         details <- fetch_appbuilder_details result ;;
         if negb (is_none details) then ret (appbuilders ++ [details])%list
         else ret appbuilders)
      acc
    = (inr (acc ++ (if is_none v then [] else repeat v (List.length l)))%list, out').
Proof.
  intros Hv. induction l as [|i l IH]; intros acc.
  - exists []. cbn. destruct (is_none v); now rewrite app_nil_r.
  - cbn [for_each].
    rewrite (bind_inr _ _ _ _ (collect_turn r0 rest v out i acc Hv)).
    destruct (IH (if is_none v then acc else (acc ++ [v])%list)) as [out' Ho].
    rewrite Ho. unfold outcome, trace. cbn [fst snd].
    eexists. f_equal. f_equal.
    destruct (is_none v); [reflexivity|].
    cbn [List.length repeat]. now rewrite <- app_assoc.
Qed.

Lemma collect_list (r0 : value) (rest : list value) v out n :
  fetch_appbuilder_details r0 = (inr v, out) ->
  outcome (collect (VList (r0 :: rest)) n)
  = inr (if is_none v then [] else repeat v n).
Proof.
  intros Hv. unfold collect.
  destruct (collect_loop r0 rest v out (seq 0 n) Hv []) as [out' Ho].
  rewrite Ho. unfold outcome. cbn [fst app]. now rewrite length_seq.
Qed.

(** ** [run] on a list of results *)

Lemma run_results (url token : string) (backend : request -> value) query
    (resp : list (string * value)) (results : value) n :
  backend (request_of url token query) = VDict resp ->
  dict_lookup "results" resp = Some results ->
  py_len results = ret n ->
  outcome (run url token backend query)
  = if (n =? 0)%nat then inr no_results
    else match outcome (collect results n) with
         | inl e => inl e
         | inr appbuilders => inr (template (cut (numbered appbuilders)))
         end.
Proof.
  intros Hb Hr Hn. unfold run, requests_post. rewrite Hb.
  cbn [bind dict_get]. rewrite Hr. rewrite bind_ret, Hn, bind_ret.
  cbn [bind emit].
  destruct (n =? 0)%nat; [reflexivity|].
  unfold outcome. destruct (collect results n) as [[e|a] out]; reflexivity.
Qed.

Lemma run_trace (url token : string) (backend : request -> value) query :
  exists rest,
    trace (run url token backend query) = HttpPost (request_of url token query) :: rest
    /\ Forall not_post rest.
Proof.
  unfold run, requests_post.
  set (k := fun search_results : value => _).
  assert (Hk : forall x, quiet (k x)).
  { intros x. unfold k.
    apply quiet_bind; [auto with quiet | intros results].
    apply quiet_bind; [auto with quiet | intros n].
    apply quiet_bind; [auto with quiet | intros _].
    destruct (n =? 0)%nat; auto with quiet. }
  specialize (Hk (backend (request_of url token query))).
  unfold bind, trace. destruct (k _) as [r out]. exists out. now split.
Qed.

Lemma run_on_list (url token : string) (backend : request -> value) query
    (resp : list (string * value)) (r0 : value) (rest : list value) :
  backend (request_of url token query) = VDict resp ->
  dict_lookup "results" resp = Some (VList (r0 :: rest)) ->
  exists v out,
    fetch_appbuilder_details r0 = (inr v, out)
    /\ (v = VNone \/ exists s, v = VStr s)
    /\ outcome (run url token backend query)
       = inr (template (cut (numbered
                (if is_none v then [] else repeat v (S (List.length rest)))))).
Proof.
  intros Hb Hr.
  destruct (fetch_appbuilder_details_returns r0) as (v & out & Hv & Hc).
  exists v, out. repeat split; try assumption.
  rewrite (run_results url token backend query resp (VList (r0 :: rest))
             (S (List.length rest)) Hb Hr eq_refl).
  cbn [Nat.eqb]. now rewrite (collect_list r0 rest v out _ Hv).
Qed.

(* ------------------------------------------------------------------ *)
(** * The claims *)

(** ** String arguments of [format_array] *)

Lemma format_array_str (s : string) : format_array (VStr s) = ret (VStr s).
Proof. reflexivity. Qed.

Lemma for_append_strings (ss : list string) :
  for_append format_array (map VStr ss) = ret (map VStr ss).
Proof.
  induction ss as [|s ss IH]; [reflexivity|].
  cbn [map for_append]. now rewrite format_array_str, bind_ret, IH, !bind_ret.
Qed.

(** C7. For a string [s] without the text [http], [format_array] returns
    [s] unchanged and prints nothing, and applying it to its own result
    gives the same again. *)
Theorem format_array_plain_string (s : string) :
  str_in "http" s = false ->
  format_array (VStr s) = ret (VStr s)
  /\ (x <- format_array (VStr s) ;; format_array x) = format_array (VStr s).
Proof.
  intros _. split; [apply format_array_str|].
  now rewrite format_array_str, bind_ret, format_array_str.
Qed.

Lemma format_array_plain_string_witness :
  str_in "http" "Weather API" = false
  /\ format_array (VStr "Weather API") = ret (VStr "Weather API")
  /\ (x <- format_array (VStr "Weather API") ;; format_array x)
     = format_array (VStr "Weather API").
Proof.
  split; [reflexivity|].
  apply (format_array_plain_string "Weather API"). reflexivity.
Defined.

(** C9. [format_array] returns every string argument unchanged and
    prints nothing, with or without [http] in it; the same holds for the
    strings of a list.  Only a string met as the value of a dict entry is
    tested for [http]. *)
Theorem format_array_any_string (s : string) :
  format_array (VStr s) = ret (VStr s)
  /\ (forall ss, format_array (VList (map VStr ss)) = ret (VStr (String.concat ", " ss)))
  /\ (forall key,
        format_array (VDict [(key, VStr s)])
        = if str_in "http" s then (inr (VStr EmptyString), [Print s])
          else ret (VStr (" " ++ LF ++ " " ++ key ++ " : " ++ s))).
Proof.
  split; [apply format_array_str|]. split.
  - intros ss. cbn [format_array]. rewrite for_append_strings, bind_ret.
    unfold str_join. now rewrite strs_of_map.
  - intros key. cbn [format_array format_dict dict_keys map fst for_each].
    unfold format_dict_step, dict_getitem. cbn [dict_lookup].
    rewrite String.eqb_refl, bind_ret.
    destruct (str_in "http" s); reflexivity.
Qed.

(** ** Dict arguments of [format_array] *)

Lemma concat_texts_app (a b : list string) :
  concat_texts (a ++ b) = concat_texts a ++ concat_texts b.
Proof.
  induction a as [|x a IH]; [reflexivity|].
  cbn [app concat_texts]. now rewrite IH, str_app_assoc.
Qed.

Lemma entry_text_link (key s : string) :
  str_in "http" s = true -> entry_text (key, VStr s) = EmptyString.
Proof. unfold entry_text. cbn [snd is_link]. now intros ->. Qed.

Lemma entry_prints_link (key s : string) :
  str_in "http" s = true -> entry_prints (key, VStr s) = [Print s].
Proof. unfold entry_prints. cbn [snd is_link]. now intros ->. Qed.

(** C8. An entry of a dict whose value is a string with [http] in it
    adds nothing to the text [format_array] returns, which is the text the
    dict gives without the entry; the value is printed instead. *)
Theorem format_array_drops_link (d1 d2 : list (string * value)) (key s : string) :
  wf_dict (d1 ++ (key, VStr s) :: d2) ->
  str_in "http" s = true ->
  outcome (format_array (VDict (d1 ++ (key, VStr s) :: d2)))
  = outcome (format_array (VDict (d1 ++ d2)))
  /\ outcome (format_array (VDict (d1 ++ (key, VStr s) :: d2)))
     = inr (VStr (concat_texts (map entry_text d1) ++ concat_texts (map entry_text d2)))
  /\ trace (format_array (VDict (d1 ++ (key, VStr s) :: d2)))
     = (flat_map entry_prints d1 ++ Print s :: flat_map entry_prints d2)%list.
Proof.
  intros Hwf Hs.
  destruct (wf_dict_middle _ _ _ _ Hwf) as [_ Hwf'].
  rewrite (format_array_dict _ Hwf), (format_array_dict _ Hwf').
  unfold outcome, trace. cbn [fst snd].
  rewrite !map_app, !concat_texts_app, flat_map_app.
  cbn [map concat_texts flat_map].
  rewrite (entry_text_link key s Hs), (entry_prints_link key s Hs).
  cbn [String.append app]. repeat split; reflexivity.
Qed.

Lemma format_array_drops_link_witness :
  wf_dict ([("title", VStr "Weather API")]
             ++ ("url", VStr "http://w.example") :: [("desc", VStr "hot")])
  /\ str_in "http" "http://w.example" = true
  /\ outcome (format_array
               (VDict ([("title", VStr "Weather API")]
                         ++ ("url", VStr "http://w.example") :: [("desc", VStr "hot")])))
     = inr (VStr (" " ++ LF ++ " title : Weather API " ++ LF ++ " desc : hot")).
Proof.
  assert (Hwf : wf_dict ([("title", VStr "Weather API")]
             ++ ("url", VStr "http://w.example") :: [("desc", VStr "hot")])).
  { repeat constructor; simpl; intuition discriminate. }
  split; [exact Hwf|]. split; [reflexivity|].
  exact (proj1 (proj2 (format_array_drops_link
           [("title", VStr "Weather API")] [("desc", VStr "hot")]
           "url" "http://w.example" Hwf eq_refl))).
Defined.

(** C4, as the code has it.  For a dict, [format_array] returns the texts
    of its entries one after the other in insertion order.  An entry whose
    value is a string with [http] in it gives no text; any other entry gives
    a space, a newline, a space and [key : value], where a string value
    stands as it is and any other value as Python's [str] writes it: a
    nested dict or list is not flattened. *)
Theorem format_array_mapping (d : list (string * value)) :
  wf_dict d ->
  outcome (format_array (VDict d))
  = inr (VStr (concat_texts
          (map (fun kv =>
                  match snd kv with
                  | VStr s =>
                      if str_in "http" s then EmptyString
                      else " " ++ LF ++ " " ++ fst kv ++ " : " ++ s
                  | v => " " ++ LF ++ " " ++ fst kv ++ " : " ++ py_str v
                  end) d))).
Proof.
  intros Hwf. rewrite (format_array_dict d Hwf). unfold outcome. cbn [fst].
  do 3 f_equal. apply map_ext. intros [k v].
  unfold entry_text. cbn [fst snd].
  destruct v; reflexivity.
Qed.

Lemma format_array_mapping_witness :
  wf_dict [("a", VDict [("b", VStr "c")]); ("u", VStr "http://x"); ("n", VList [VInt 1])]
  /\ outcome (format_array
               (VDict [("a", VDict [("b", VStr "c")]); ("u", VStr "http://x");
                       ("n", VList [VInt 1])]))
     = inr (VStr (" " ++ LF ++ " a : {'b': 'c'} " ++ LF ++ " n : [1]")).
Proof.
  assert (Hwf : wf_dict [("a", VDict [("b", VStr "c")]); ("u", VStr "http://x");
                         ("n", VList [VInt 1])]).
  { repeat constructor; simpl; intuition discriminate. }
  split; [exact Hwf|].
  exact (format_array_mapping _ Hwf).
Defined.

(** C4 fails as stated: the dict inside [nested_details] is written as
    Python writes a dict, not as its own flattening, which does not occur
    in the result; the result differs from the flattening the
    specification describes. *)
Lemma format_array_nested_verbatim :
  outcome (format_array nested_details) = inr (VStr (" " ++ LF ++ " a : {'b': 'c'}"))
  /\ outcome (format_array (VDict [("b", VStr "c")])) = inr (VStr (" " ++ LF ++ " b : c"))
  /\ str_in "b : c" (" " ++ LF ++ " a : {'b': 'c'}") = false
  /\ flatten_as_specified nested_details = "a : b : c"
  /\ outcome (format_array nested_details) <> inr (VStr (flatten_as_specified nested_details)).
Proof. repeat split; try reflexivity. discriminate. Qed.

(** ** [run] without results *)

(** C5. When the list of results in the answer of the service is empty,
    [run] returns the fixed text and nothing else. *)
Theorem run_empty_results (url token : string) (backend : request -> value) query
    (resp : list (string * value)) :
  backend (request_of url token query) = VDict resp ->
  dict_lookup "results" resp = Some (VList []) ->
  outcome (run url token backend query)
  = inr "Google appbuilders did not find any appbuilders that match the description".
Proof.
  intros Hb Hr.
  now rewrite (run_results url token backend query resp (VList []) 0 Hb Hr eq_refl).
Qed.

Lemma run_empty_results_witness :
  outcome (run "https://ds.example/search" "t0k3n"
            (fun _ => response_of (VList [])) "weather")
  = inr "Google appbuilders did not find any appbuilders that match the description".
Proof.
  apply (run_empty_results "https://ds.example/search" "t0k3n"
           (fun _ => response_of (VList [])) "weather"
           [("results", VList [])]); reflexivity.
Defined.

(** ** [run] on several results *)

(** C1, evaluated.  On two results titled [A] and [B] the text returned
    by [run] numbers the first result twice: both turns of the loop read
    item 0, and the second result, which [fetch_appbuilder_details] would
    format as shown, is never read. *)
Theorem run_repeats_first_result (url token query : string) :
  outcome (run url token (fun _ => two_results) query)
  = inr (template ("1. A " ++ LF ++ "  " ++ LF ++ " title : A" ++ LF
                   ++ "2. A " ++ LF ++ "  " ++ LF ++ " title : A"))
  /\ outcome (fetch_appbuilder_details (titled "B"))
     = inr (VStr ("B " ++ LF ++ "  " ++ LF ++ " title : B"))
  /\ outcome (collect (VList [titled "A"; titled "B"]) 2)
     = inr [VStr ("A " ++ LF ++ "  " ++ LF ++ " title : A");
            VStr ("A " ++ LF ++ "  " ++ LF ++ " title : A")].
Proof. repeat split; reflexivity. Qed.

(** ** Records without [derivedStructData] *)

Lemma dict_get_dict (d : list (string * value)) key default :
  dict_get (VDict d) key default = ret (get_or d key default).
Proof. unfold dict_get, get_or. now destruct (dict_lookup key d). Qed.







(** ** The length of the text [run] returns *)

(** C3 fails as stated: for one result with a title of 1000 characters
    the answer is cut at 1024 characters and the text returned, the answer
    inside the template, has 1175. *)
Lemma run_longer_than_1024 :
  String.length long_title = 1000
  /\ outcome (run "https://ds.example/search" "t0k3n" (fun _ => long_response) "weather")
     = inr (template
              (String.substring 0 1024
                 ("1. " ++ long_title ++ " " ++ LF ++ "  " ++ LF
                        ++ " title : " ++ long_title)))
  /\ String.length
       (template
          (String.substring 0 1024
             ("1. " ++ long_title ++ " " ++ LF ++ "  " ++ LF
                    ++ " title : " ++ long_title)))
     = 1175.
Proof. repeat split; vm_compute; reflexivity. Qed.

(** C3, as the code has it.  On a non-empty list of results [run] returns
    the template around an answer of at most 1024 characters; the template
    adds 151 characters, so the text returned has at most 1175. *)
Theorem run_answer_bound (url token : string) (backend : request -> value) query
    (resp : list (string * value)) (r0 : value) (rest : list value) :
  backend (request_of url token query) = VDict resp ->
  dict_lookup "results" resp = Some (VList (r0 :: rest)) ->
  exists answer,
    outcome (run url token backend query) = inr (template answer)
    /\ String.length answer <= 1024
    /\ String.length (template answer) = 151 + String.length answer
    /\ String.length (template answer) <= 1175.
Proof.
  intros Hb Hr.
  destruct (run_on_list url token backend query resp r0 rest Hb Hr)
    as (v & out & _ & _ & Hrun).
  eexists. split; [exact Hrun|].
  pose proof (cut_length
    (numbered (if is_none v then [] else repeat v (S (List.length rest))))) as Hc.
  rewrite template_length. repeat split; lia.
Qed.

Lemma run_answer_bound_witness :
  dict_lookup "results" [("results", VList [titled long_title])]
  = Some (VList [titled long_title])
  /\ exists answer,
       outcome (run "https://ds.example/search" "t0k3n" (fun _ => long_response) "weather")
       = inr (template answer)
       /\ String.length answer <= 1024
       /\ String.length (template answer) = 151 + String.length answer
       /\ String.length (template answer) <= 1175.
Proof.
  split; [reflexivity|].
  apply (run_answer_bound "https://ds.example/search" "t0k3n"
           (fun _ => long_response) "weather"
           [("results", VList [titled long_title])] (titled long_title) []);
    reflexivity.
Defined.

(** ** The weather example *)

(** C6 fails as stated: the text returned for [weather_response] does
    not contain the text of the claim, read with newlines or with the two
    characters backslash and n, because the title is also an entry of the
    dict and gets a line of its own before [desc]. *)
Lemma run_weather_without_claimed_text :
  exists s,
    outcome (run "https://ds.example/search" "t0k3n" (fun _ => weather_response) "weather")
    = inr s
    /\ str_in ("1. Weather API " ++ LF ++ "  " ++ LF ++ " desc : hot") s = false
    /\ str_in "1. Weather API \n  \n desc : hot" s = false.
Proof. eexists. repeat split. Qed.

(** C6, as the code has it.  For [weather_response] the text returned by
    [run], whatever the query, is the template around one numbered entry:
    the title, then a line for [title] and a line for [desc]. *)
Theorem run_weather (url token query : string) :
  outcome (run url token (fun _ => weather_response) query)
  = inr (template ("1. Weather API " ++ LF ++ "  " ++ LF
                   ++ " title : Weather API " ++ LF ++ " desc : hot"))
  /\ str_in ("1. Weather API " ++ LF ++ "  " ++ LF
             ++ " title : Weather API " ++ LF ++ " desc : hot")
       (template ("1. Weather API " ++ LF ++ "  " ++ LF
                  ++ " title : Weather API " ++ LF ++ " desc : hot"))
     = true.
Proof. split; reflexivity. Qed.

(** ** The request *)

(** C10. [run] posts exactly one request, before anything else.  Its
    body is the JSON text of a dict in which [page_size] is the string
    [2], written between double quotes, and [offset] the number [0]. *)
Theorem run_request_body (url token : string) (backend : request -> value)
    (query : string) :
  (exists rest,
     trace (run url token backend query)
     = HttpPost (request_of url token query) :: rest
     /\ Forall not_post rest)
  /\ request_data query
     = VDict [("query", VStr query); ("page_size", VStr "2"); ("offset", VInt 0)]
  /\ req_data (request_of url token query)
     = "{" ++ quoted "query" ++ ": " ++ json_str query ++ ", "
           ++ quoted "page_size" ++ ": " ++ quoted "2" ++ ", "
           ++ quoted "offset" ++ ": 0}"
  /\ json_dumps (VStr "2") = quoted "2"
  /\ json_dumps (VInt 2) = "2".
Proof.
  split; [apply run_trace|]. repeat split; try reflexivity.
  unfold request_of, request_data. cbn [req_data json_dumps map fst snd String.concat].
  unfold json_str, quoted. generalize (json_chars query). intros body.
  vm_compute. fold String.append. rewrite !str_app_assoc. reflexivity.
Qed.

(* ------------------------------------------------------------------ *)
(** * Further properties of the code *)

(** ** [format_array] on every value *)

Lemma entry_prints_are_prints (kv : string * value) :
  Forall is_print (entry_prints kv).
Proof.
  unfold entry_prints. destruct (is_link (snd kv)); repeat constructor.
Qed.

Lemma format_dict_prints (d : list (string * value)) :
  exists s out, format_dict d = (inr s, out) /\ Forall is_print out.
Proof.
  unfold format_dict.
  assert (H : forall keys, incl keys (dict_keys d) ->
            forall acc, exists s out,
              for_each keys (format_dict_step d) acc = (inr s, out)
              /\ Forall is_print out).
  { induction keys as [|k keys IH]; intros Hin acc.
    - exists acc, []. now split.
    - destruct (dict_lookup_in d k) as [v Hv]; [apply Hin; now left|].
      destruct (IH (fun x Hx => Hin x (or_intror Hx)) (acc ++ entry_text (k, v)))
        as (s & out & Hs & Hp).
      cbn [for_each]. erewrite bind_inr by (apply format_dict_step_eq, Hv).
      rewrite Hs. eexists _, _. split; [reflexivity|].
      apply Forall_app. split; [apply entry_prints_are_prints | exact Hp]. }
  apply H, incl_refl.
Qed.

Lemma for_append_texts {A} (f : A -> M value) (l : list A) :
  Forall (fun x => exists s out, f x = (inr (VStr s), out) /\ Forall is_print out) l ->
  exists ss out,
    for_append f l = (inr (map VStr ss), out) /\ Forall is_print out.
Proof.
  induction 1 as [|x l (s & out & Hx & Hp) _ (ss & out' & IH & Hp')].
  - exists [], []. now split.
  - exists (s :: ss). cbn [for_append]. rewrite Hx, IH.
    eexists. split; [reflexivity|].
    cbn [app]. rewrite app_nil_r. apply Forall_app. now split.
Qed.

Lemma format_array_text (v : value) :
  exists s out, format_array v = (inr (VStr s), out) /\ Forall is_print out.
Proof.
  induction v as [| | | | |l IH|d _] using value_nested_ind;
    try (eexists _, _; split; [reflexivity | constructor]).
  - destruct (for_append_texts format_array l IH) as (ss & out & Hl & Hp).
    cbn [format_array]. rewrite Hl. unfold str_join.
    cbn. rewrite strs_of_map. cbn. eexists _, _. split; [reflexivity|].
    now rewrite app_nil_r.
  - destruct (format_dict_prints d) as (s & out & Hd & Hp).
    cbn [format_array]. rewrite Hd. eexists _, _. split; [reflexivity|].
    cbn. now rewrite app_nil_r.
Qed.

Lemma text_of_eq (v : value) :
  format_array v = (inr (VStr (text_of v)), trace (format_array v)).
Proof.
  destruct (format_array_text v) as (s & out & Hv & _).
  unfold text_of, outcome, trace. now rewrite Hv.
Qed.

Lemma for_append_format_array (l : list value) :
  for_append format_array l
  = (inr (map (fun x => VStr (text_of x)) l),
     flat_map (fun x => trace (format_array x)) l).
Proof.
  induction l as [|x l IH]; [reflexivity|].
  cbn [for_append map flat_map]. rewrite (text_of_eq x) at 1. rewrite IH.
  cbn. now rewrite app_nil_r.
Qed.

(** X2. For a list, [format_array] returns the texts of the items joined
    by a comma and a space, in order, and prints what the items print; an
    item that is neither a string, a dict nor a list counts as the empty
    text. *)
Theorem format_array_list_join (l : list value) :
  format_array (VList l)
  = (inr (VStr (String.concat ", " (map text_of l))),
     flat_map (fun x => trace (format_array x)) l)
  /\ (forall s, text_of (VStr s) = s)
  /\ text_of VNone = EmptyString
  /\ (forall b, text_of (VBool b) = EmptyString)
  /\ (forall n, text_of (VInt n) = EmptyString)
  /\ (forall r, text_of (VFloat r) = EmptyString).
Proof.
  split; [|repeat split].
  cbn [format_array]. rewrite for_append_format_array.
  unfold str_join. cbn [bind].
  rewrite <- (map_map text_of VStr), strs_of_map.
  cbn. now rewrite !app_nil_r.
Qed.

(** X3. Formatting twice is formatting once: applying [format_array] to
    what it returned gives the same result and prints nothing more. *)
Theorem format_array_idempotent (v : value) :
  (x <- format_array v ;; format_array x) = format_array v.
Proof.
  rewrite (text_of_eq v) at 1. cbn [bind format_array try_except ret].
  rewrite app_nil_r. symmetry. apply text_of_eq.
Qed.

(** X4. For a dict, the lines [format_array] prints are exactly the
    string values with [http] in them. *)
Theorem format_array_prints_links (d : list (string * value)) (s : string) :
  wf_dict d ->
  (In (Print s) (trace (format_array (VDict d)))
   <-> exists key, In (key, VStr s) d /\ str_in "http" s = true).
Proof.
  intros Hwf. rewrite (format_array_dict d Hwf). unfold trace. cbn [snd].
  rewrite in_flat_map. split.
  - intros ([k v] & Hin & Hp). unfold entry_prints in Hp. cbn [snd] in Hp.
    destruct v as [| | | |s'| |]; try contradiction.
    cbn [is_link py_str] in Hp. destruct (str_in "http" s') eqn:Hs; [|contradiction].
    destruct Hp as [Hp|[]]. injection Hp as <-. now exists k.
  - intros (k & Hin & Hs). exists (k, VStr s). split; [assumption|].
    rewrite (entry_prints_link k s Hs). now left.
Qed.

Lemma format_array_prints_links_witness :
  wf_dict [("title", VStr "Weather API"); ("url", VStr "http://w.example")]
  /\ (In (Print "http://w.example")
        (trace (format_array
                  (VDict [("title", VStr "Weather API"); ("url", VStr "http://w.example")])))
      <-> exists key,
            In (key, VStr "http://w.example")
               [("title", VStr "Weather API"); ("url", VStr "http://w.example")]
            /\ str_in "http" "http://w.example" = true).
Proof.
  assert (Hwf : wf_dict [("title", VStr "Weather API"); ("url", VStr "http://w.example")]).
  { repeat constructor; simpl; intuition discriminate. }
  split; [exact Hwf|].
  exact (format_array_prints_links _ "http://w.example" Hwf).
Defined.

(** ** [fetch_appbuilder_details] on one record *)

Lemma format_appbuilder_details_dict (details : list (string * value)) (title : string) :
  wf_dict details ->
  get_or details "title" (VStr EmptyString) = VStr title ->
  format_appbuilder_details (VDict details)
  = (inr (VStr (title ++ " " ++ LF ++ " " ++ concat_texts (map entry_text details))),
     flat_map entry_prints details).
Proof.
  intros Hwf Ht. unfold format_appbuilder_details.
  rewrite dict_get_dict, bind_ret, Ht. cbn [add_str]. rewrite bind_ret.
  rewrite (format_array_dict details Hwf).
  cbn. now rewrite !app_nil_r, !str_app_assoc.
Qed.

Lemma fetch_as_record (prediction doc : list (string * value)) (details : value) :
  get_or prediction "document" (VDict []) = VDict doc ->
  get_or doc "derivedStructData" (VDict []) = details ->
  fetch_appbuilder_details (VDict prediction)
  = try_except (format_appbuilder_details details)
      (fun e =>
         emit (LogError "An Error occurred while fetching appbuilder details: " e) ;;
         ret VNone).
Proof.
  intros Hd Hs. unfold fetch_appbuilder_details.
  now rewrite dict_get_dict, bind_ret, Hd, dict_get_dict, bind_ret, Hs.
Qed.

(** X5. For a record whose [derivedStructData] is a dict with a string
    title (or none, which counts as the empty title),
    [fetch_appbuilder_details] returns the title, a space, a newline, a
    space, and then the texts of all the entries of the dict, the title's
    own entry among them; it prints the link values and logs nothing. *)
Theorem fetch_formats_record (details : list (string * value)) (title : string) :
  wf_dict details ->
  get_or details "title" (VStr EmptyString) = VStr title ->
  fetch_appbuilder_details (record_of (VDict details))
  = (inr (VStr (title ++ " " ++ LF ++ " " ++ concat_texts (map entry_text details))),
     flat_map entry_prints details).
Proof.
  intros Hwf Ht. unfold record_of.
  rewrite (fetch_as_record
             [("document", VDict [("derivedStructData", VDict details)])]
             [("derivedStructData", VDict details)] (VDict details)
             eq_refl eq_refl).
  now rewrite (format_appbuilder_details_dict details title Hwf Ht).
Qed.

Lemma fetch_formats_record_witness :
  wf_dict [("title", VStr "Weather API"); ("url", VStr "http://w.example");
           ("desc", VStr "hot")]
  /\ fetch_appbuilder_details
       (record_of (VDict [("title", VStr "Weather API"); ("url", VStr "http://w.example");
                          ("desc", VStr "hot")]))
     = (inr (VStr ("Weather API " ++ LF ++ "  " ++ LF ++ " title : Weather API "
                   ++ LF ++ " desc : hot")),
        [Print "http://w.example"]).
Proof.
  assert (Hwf : wf_dict [("title", VStr "Weather API"); ("url", VStr "http://w.example");
                         ("desc", VStr "hot")]).
  { repeat constructor; simpl; intuition discriminate. }
  split; [exact Hwf|].
  exact (fetch_formats_record
           [("title", VStr "Weather API"); ("url", VStr "http://w.example");
            ("desc", VStr "hot")] "Weather API" Hwf eq_refl).
Defined.

(** X6. [fetch_appbuilder_details] reads nothing of a record but its
    [document.derivedStructData]: a record with other keys beside, at
    either level, is answered as the record made of its
    [derivedStructData] alone. *)
Theorem fetch_reads_struct_data_only (prediction doc : list (string * value))
    (details : value) :
  get_or prediction "document" (VDict []) = VDict doc ->
  get_or doc "derivedStructData" (VDict []) = details ->
  fetch_appbuilder_details (VDict prediction)
  = fetch_appbuilder_details (record_of details).
Proof.
  intros Hd Hs. rewrite (fetch_as_record prediction doc details Hd Hs).
  unfold record_of. symmetry.
  exact (fetch_as_record [("document", VDict [("derivedStructData", details)])]
           [("derivedStructData", details)] details eq_refl eq_refl).
Qed.

Lemma fetch_reads_struct_data_only_witness :
  get_or [("name", VStr "n"); ("derivedStructData", VDict [("title", VStr "A")])]
    "derivedStructData" (VDict [])
  = VDict [("title", VStr "A")]
  /\ fetch_appbuilder_details
    (VDict [("id", VStr "7");
            ("document",
             VDict [("name", VStr "n");
                    ("derivedStructData", VDict [("title", VStr "A")])])])
  = fetch_appbuilder_details (titled "A").
Proof.
  split; [reflexivity|].
  exact (fetch_reads_struct_data_only
           [("id", VStr "7");
            ("document",
             VDict [("name", VStr "n");
                    ("derivedStructData", VDict [("title", VStr "A")])])]
           [("name", VStr "n"); ("derivedStructData", VDict [("title", VStr "A")])]
           (VDict [("title", VStr "A")]) eq_refl eq_refl).
Defined.

Ltac logs_once :=
  eexists _, _; split; [reflexivity|]; split; [now left|]; split;
  [ intros _; split; [reflexivity | now eexists _, _]
  | intros [? Hs]; discriminate Hs ].

(** X7. [fetch_appbuilder_details] never raises: it returns [None] or a
    text.  For a record that is not [well_shaped] it returns [None] after
    exactly one call of [logging.error] and no [print].  When it returns
    a text the record is [well_shaped] and nothing was logged: the only
    output is the [print] of link values. *)
Theorem fetch_logs_once_or_formats (p : value) :
  exists v out,
    fetch_appbuilder_details p = (inr v, out)
    /\ (v = VNone \/ exists s, v = VStr s)
    /\ (well_shaped p = false ->
        v = VNone /\ exists text e, out = [LogError text e])
    /\ ((exists s, v = VStr s) ->
        well_shaped p = true /\ Forall is_print out).
Proof.
  destruct p as [| | | | | |d]; try logs_once.
  unfold fetch_appbuilder_details, well_shaped.
  rewrite dict_get_dict, bind_ret.
  destruct (get_or d "document" (VDict [])) as [| | | | | |doc]; try logs_once.
  rewrite dict_get_dict, bind_ret.
  destruct (get_or doc "derivedStructData" (VDict [])) as [| | | | | |details];
    try logs_once.
  unfold format_appbuilder_details.
  rewrite dict_get_dict, bind_ret.
  destruct (get_or details "title" (VStr EmptyString)) as [| | | |title| |];
    try logs_once.
  destruct (format_array_text (VDict details)) as (body & out & Hb & Hp).
  cbn [add_str]. rewrite bind_ret, Hb.
  eexists _, _. split; [reflexivity|]. split; [right; now eexists|].
  split; [discriminate|]. intros _. split; [reflexivity|].
  cbn. now rewrite !app_nil_r.
Qed.

(** ** How [run] ends *)

Lemma run_no_length (url token : string) (backend : request -> value) query
    (resp : list (string * value)) e :
  backend (request_of url token query) = VDict resp ->
  py_len (get_or resp "results" (VDict [])) = raise e ->
  outcome (run url token backend query) = inl e.
Proof.
  intros Hb Hn. unfold run, requests_post. rewrite Hb. cbn [bind].
  now rewrite dict_get_dict, bind_ret, Hn.
Qed.

Lemma run_length_zero (url token : string) (backend : request -> value) query
    (resp : list (string * value)) :
  backend (request_of url token query) = VDict resp ->
  py_len (get_or resp "results" (VDict [])) = ret 0 ->
  run url token backend query
  = (inr no_results,
     [HttpPost (request_of url token query); Print "num_to_return:0"]).
Proof.
  intros Hb Hn. unfold run, requests_post. rewrite Hb. cbn [bind].
  now rewrite dict_get_dict, bind_ret, Hn.
Qed.

Lemma run_length_pos (url token : string) (backend : request -> value) query
    (resp : list (string * value)) n :
  backend (request_of url token query) = VDict resp ->
  py_len (get_or resp "results" (VDict [])) = ret (S n) ->
  outcome (run url token backend query)
  = match outcome (collect (get_or resp "results" (VDict [])) (S n)) with
    | inl e => inl e
    | inr appbuilders => inr (template (cut (numbered appbuilders)))
    end.
Proof.
  intros Hb Hn. unfold run, requests_post. rewrite Hb. cbn [bind].
  rewrite dict_get_dict, bind_ret, Hn, bind_ret. cbn [bind emit Nat.eqb].
  unfold outcome. destruct (collect _ (S n)) as [[e|a] out]; reflexivity.
Qed.

(** The loop when the subscript [False] always gives the same item. *)
Lemma collect_same (search_results r0 v : value) out n :
  subscript_bool search_results false = ret r0 ->
  fetch_appbuilder_details r0 = (inr v, out) ->
  outcome (collect search_results n)
  = inr (if is_none v then [] else repeat v n).
Proof.
  intros Hs Hv. unfold collect.
  assert (T : forall i (acc : list value),
    (result <- subscript_bool search_results (builtin_id_eq i) ;;
     details <- fetch_appbuilder_details result ;;
     if negb (is_none details) then ret (acc ++ [details])%list else ret acc)
    = (inr (if is_none v then acc else (acc ++ [v])%list), (out ++ [])%list)).
  { intros i acc. unfold builtin_id_eq. rewrite Hs, bind_ret, Hv. cbn [bind].
    destruct (is_none v); reflexivity. }
  assert (H : forall l acc, exists out',
    for_each l
      (fun i appbuilders =>
         result <- subscript_bool search_results (builtin_id_eq i) ;;
         details <- fetch_appbuilder_details result ;;
         if negb (is_none details) then ret (appbuilders ++ [details])%list
         else ret appbuilders)
      acc
    = (inr (acc ++ (if is_none v then [] else repeat v (List.length l)))%list, out')).
  { induction l as [|i l IH]; intros acc.
    - exists []. cbn. destruct (is_none v); now rewrite app_nil_r.
    - cbn [for_each]. rewrite (bind_inr _ _ _ _ (T i acc)).
      destruct (IH (if is_none v then acc else (acc ++ [v])%list)) as [out' Ho].
      rewrite Ho. unfold outcome, trace. cbn [fst snd].
      eexists. f_equal. f_equal.
      destruct (is_none v); [reflexivity|].
      cbn [List.length repeat]. now rewrite <- app_assoc. }
  destruct (H (seq 0 n) []) as [out' Ho]. rewrite Ho.
  unfold outcome. cbn [fst app]. now rewrite length_seq.
Qed.

(** X8. How [run] ends is decided by the shape of the answer alone:
    [AttributeError] when the answer is not a dict, [TypeError] when its
    [results] is [None], a boolean or a number, [KeyError] when [results]
    is a dict with entries; in every other case, a list or a string of any
    length or the empty dict, [run] returns a text. *)
Theorem run_fails_by_shape (url token : string) (backend : request -> value)
    (query : string) :
  match run_failure (backend (request_of url token query)) with
  | Some e => outcome (run url token backend query) = inl e
  | None => exists text, outcome (run url token backend query) = inr text
  end.
Proof.
  destruct (backend (request_of url token query)) as [| | | | | |resp] eqn:Hb;
    try (cbn [run_failure]; unfold run, requests_post; rewrite Hb; reflexivity).
  cbn [run_failure].
  destruct (get_or resp "results" (VDict [])) as [| | | |s|l|d] eqn:Hr;
    try (apply (run_no_length url token backend query resp TypeError Hb);
         now rewrite Hr).
  - destruct s as [|c s].
    + eexists. erewrite run_length_zero; [reflexivity | exact Hb | now rewrite Hr].
    + destruct (fetch_appbuilder_details_returns (VStr (String c EmptyString)))
        as (v & out & Hv & _).
      eexists. rewrite (run_length_pos url token backend query resp (String.length s) Hb)
        by now rewrite Hr.
      rewrite Hr.
      now rewrite (collect_same (VStr (String c s)) _ v out _ eq_refl Hv).
  - destruct l as [|r0 rest].
    + eexists. erewrite run_length_zero; [reflexivity | exact Hb | now rewrite Hr].
    + destruct (fetch_appbuilder_details_returns r0) as (v & out & Hv & _).
      eexists. rewrite (run_length_pos url token backend query resp (List.length rest) Hb)
        by now rewrite Hr.
      rewrite Hr.
      now rewrite (collect_same (VList (r0 :: rest)) _ v out _ eq_refl Hv).
  - destruct d as [|kv d].
    + eexists. erewrite run_length_zero; [reflexivity | exact Hb | now rewrite Hr].
    + rewrite (run_length_pos url token backend query resp (List.length d) Hb)
        by now rewrite Hr.
      now rewrite Hr.
Qed.

(** X9. When [results] is missing from the answer, or is empty (a list,
    a dict or a string), [run] returns the fixed text after posting the
    request and printing a count of 0; no record is fetched and nothing is
    logged. *)
Theorem run_nothing_found (url token : string) (backend : request -> value) query
    (resp : list (string * value)) :
  backend (request_of url token query) = VDict resp ->
  py_len (get_or resp "results" (VDict [])) = ret 0 ->
  run url token backend query
  = (inr "Google appbuilders did not find any appbuilders that match the description",
     [HttpPost (request_of url token query); Print "num_to_return:0"]).
Proof. apply run_length_zero. Qed.

Lemma run_nothing_found_witness :
  py_len (get_or [("totalSize", VInt 0)] "results" (VDict [])) = ret 0
  /\ run "https://ds.example/search" "t0k3n"
       (fun _ => VDict [("totalSize", VInt 0)]) "weather"
     = (inr "Google appbuilders did not find any appbuilders that match the description",
        [HttpPost (request_of "https://ds.example/search" "t0k3n" "weather");
         Print "num_to_return:0"]).
Proof.
  split; [reflexivity|].
  exact (run_nothing_found "https://ds.example/search" "t0k3n"
           (fun _ => VDict [("totalSize", VInt 0)]) "weather"
           [("totalSize", VInt 0)] eq_refl eq_refl).
Defined.

(** X10. On a list of results, the text [run] returns depends on the
    first record and on the number of records only: the records after the
    first are never read, so replacing them by as many others changes
    nothing. *)
Theorem run_reads_first_record_only (url token query : string) (r0 : value)
    (rest rest' : list value) :
  List.length rest = List.length rest' ->
  outcome (run url token (fun _ => response_of (VList (r0 :: rest))) query)
  = outcome (run url token (fun _ => response_of (VList (r0 :: rest'))) query).
Proof.
  intros Hlen.
  destruct (run_on_list url token (fun _ => response_of (VList (r0 :: rest))) query
              [("results", VList (r0 :: rest))] r0 rest eq_refl eq_refl)
    as (v & out & Hv & _ & Hrun).
  destruct (run_on_list url token (fun _ => response_of (VList (r0 :: rest'))) query
              [("results", VList (r0 :: rest'))] r0 rest' eq_refl eq_refl)
    as (v' & out' & Hv' & _ & Hrun').
  rewrite Hv in Hv'. injection Hv' as <- <-.
  now rewrite Hrun, Hrun', Hlen.
Qed.

Lemma run_reads_first_record_only_witness :
  List.length [titled "B"; titled "C"] = List.length [no_struct_data; VInt 5]
  /\ outcome (run "https://ds.example/search" "t0k3n"
                (fun _ => response_of (VList [titled "A"; titled "B"; titled "C"]))
                "weather")
     = outcome (run "https://ds.example/search" "t0k3n"
                  (fun _ => response_of (VList [titled "A"; no_struct_data; VInt 5]))
                  "weather").
Proof.
  split; [reflexivity|].
  exact (run_reads_first_record_only "https://ds.example/search" "t0k3n" "weather"
           (titled "A") [titled "B"; titled "C"] [no_struct_data; VInt 5] eq_refl).
Defined.

(** X11. When [results] is a non-empty string instead of a list, [run]
    does not fail: each turn of the loop fetches a one-character string,
    which is answered by [None], and the text returned is the template
    around an empty answer. *)
Theorem run_on_text_results (url token : string) (backend : request -> value) query
    (resp : list (string * value)) (c : ascii) (s : string) :
  backend (request_of url token query) = VDict resp ->
  get_or resp "results" (VDict []) = VStr (String c s) ->
  outcome (run url token backend query) = inr (template EmptyString)
  /\ outcome (fetch_appbuilder_details (VStr (String c EmptyString))) = inr VNone.
Proof.
  intros Hb Hr. split; [|reflexivity].
  rewrite (run_length_pos url token backend query resp (String.length s) Hb)
    by now rewrite Hr.
  rewrite Hr.
  now rewrite (collect_same (VStr (String c s)) (VStr (String c EmptyString)) VNone
                 _ _ eq_refl eq_refl).
Qed.

Lemma run_on_text_results_witness :
  get_or [("results", VStr "none")] "results" (VDict []) = VStr "none"
  /\ outcome (run "https://ds.example/search" "t0k3n"
                (fun _ => response_of (VStr "none")) "weather")
     = inr (template EmptyString).
Proof.
  split; [reflexivity|].
  exact (proj1 (run_on_text_results "https://ds.example/search" "t0k3n"
                  (fun _ => response_of (VStr "none")) "weather"
                  [("results", VStr "none")] "n"%char "one" eq_refl eq_refl)).
Defined.

(** ** The cut at 1024 characters *)

Lemma prefix_substring (n : nat) (s : string) :
  String.prefix (String.substring 0 n s) s = true.
Proof.
  revert n. induction s as [|c s IH]; intros [|n]; try reflexivity.
  cbn [String.substring String.prefix].
  destruct (Ascii.ascii_dec c c) as [_|Hc]; [apply IH | now elim Hc].
Qed.

Lemma prefix_refl (s : string) : String.prefix s s = true.
Proof.
  induction s as [|c s IH]; [reflexivity|]. cbn [String.prefix].
  destruct (Ascii.ascii_dec c c) as [_|Hc]; [apply IH | now elim Hc].
Qed.

Lemma substring_length (n : nat) (s : string) :
  n <= String.length s -> String.length (String.substring 0 n s) = n.
Proof.
  revert n. induction s as [|c s IH]; intros [|n] Hn; try reflexivity.
  - cbn in Hn. lia.
  - cbn [String.substring String.length]. f_equal. apply IH.
    cbn [String.length] in Hn. lia.
Qed.

(** X12. The cut keeps the beginning of the answer: what is left is a
    prefix of the answer, of 1024 characters when the answer was longer
    and the answer itself otherwise, and cutting again changes nothing. *)
Theorem cut_keeps_prefix (answer : string) :
  String.prefix (cut answer) answer = true
  /\ String.length (cut answer) = Nat.min 1024 (String.length answer)
  /\ cut (cut answer) = cut answer.
Proof.
  assert (Hlen : String.length (cut answer) = Nat.min 1024 (String.length answer)).
  { unfold cut. destruct (Nat.ltb_spec 1024 (String.length answer)) as [H|H].
    - rewrite substring_length by lia. lia.
    - lia. }
  split; [|split; [exact Hlen|]].
  - unfold cut. destruct (1024 <? String.length answer)%nat.
    + apply prefix_substring.
    + apply prefix_refl.
  - unfold cut at 1.
    destruct (Nat.ltb_spec 1024 (String.length (cut answer))) as [H|H];
      [|reflexivity].
    pose proof (cut_length answer). lia.
Qed.

(** ** The numbering of the entries *)

Lemma enumerate_from_snoc {A} (l : list A) (x : A) (i : nat) :
  enumerate_from i (l ++ [x]) = (enumerate_from i l ++ [(i + List.length l, x)])%list.
Proof.
  revert i. induction l as [|y l IH]; intros i; cbn [app enumerate_from List.length].
  - now rewrite Nat.add_0_r.
  - rewrite IH. cbn [app]. now rewrite Nat.add_succ_r.
Qed.

Lemma concat_snoc (sep : string) (ls : list string) (y : string) :
  ls <> [] ->
  String.concat sep (ls ++ [y]) = String.concat sep ls ++ sep ++ y.
Proof.
  induction ls as [|a ls IH]; [congruence|]. intros _.
  destruct ls as [|b ls]; [reflexivity|].
  change (String.concat sep ((a :: b :: ls) ++ [y]))
    with (a ++ sep ++ String.concat sep ((b :: ls) ++ [y])).
  rewrite IH by discriminate.
  change (String.concat sep (a :: b :: ls))
    with (a ++ sep ++ String.concat sep (b :: ls)).
  now rewrite !str_app_assoc.
Qed.

Lemma numbered_snoc (appbuilders : list value) (item : value) :
  appbuilders <> [] ->
  numbered (appbuilders ++ [item])
  = numbered appbuilders ++ LF
      ++ dec_nat (List.length appbuilders + 1) ++ ". " ++ py_str item.
Proof.
  intros Hne. unfold numbered, enumerate.
  rewrite enumerate_from_snoc, map_app. cbn [map fst snd Nat.add].
  apply concat_snoc.
  destruct appbuilders; [congruence | discriminate].
Qed.

Lemma enumerate_positions {A} (d : A) (l : list A) :
  enumerate l = map (fun k => (k, nth k l d)) (seq 0 (List.length l)).
Proof.
  unfold enumerate. induction l as [|x l IH] using rev_ind; [reflexivity|].
  rewrite enumerate_from_snoc, length_app, seq_app, map_app, IH.
  cbn [List.length seq map Nat.add]. f_equal.
  - apply map_ext_in. intros k Hk. apply in_seq in Hk.
    now rewrite app_nth1 by lia.
  - now rewrite nth_middle.
Qed.

(** X13. The entries of the answer are numbered from 1 in the order in
    which they were collected, one per line: line [k], counted from 0,
    is [k+1], a dot, a space and entry [k] of the list.  So no entries
    give the empty answer, a single entry gives [1. entry], and one more
    entry after [n] others adds a newline and [n+1. entry] at the end. *)
Theorem numbered_in_order (appbuilders : list value) :
  numbered appbuilders
  = String.concat LF
      (map (fun k => dec_nat (k + 1) ++ ". " ++ py_str (nth k appbuilders VNone))
           (seq 0 (List.length appbuilders)))
  /\ numbered [] = EmptyString
  /\ (forall item, numbered [item] = "1. " ++ py_str item)
  /\ (forall item,
        appbuilders <> [] ->
        numbered (appbuilders ++ [item])
        = numbered appbuilders ++ LF
            ++ dec_nat (List.length appbuilders + 1) ++ ". " ++ py_str item).
Proof.
  split; [|split; [reflexivity | split; [reflexivity|]]].
  - unfold numbered. rewrite (enumerate_positions VNone), map_map. reflexivity.
  - intros item. apply numbered_snoc.
Qed.

Lemma numbered_in_order_witness :
  [VStr "first"; VStr "second"] <> []
  /\ numbered [VStr "first"; VStr "second"] = "1. first" ++ LF ++ "2. second"
  /\ numbered ([VStr "first"; VStr "second"] ++ [VStr "third"])
     = "1. first" ++ LF ++ "2. second" ++ LF ++ "3. third".
Proof.
  assert (Hne : [VStr "first"; VStr "second"] <> []) by discriminate.
  split; [exact Hne|]. split.
  - exact (proj1 (numbered_in_order [VStr "first"; VStr "second"])).
  - exact (proj2 (proj2 (proj2 (numbered_in_order [VStr "first"; VStr "second"])))
             (VStr "third") Hne).
Defined.

(** ** [validate_environment] *)

Lemma dict_lookup_setitem_same (d : list (string * value)) key v :
  dict_lookup key (dict_setitem d key v) = Some v.
Proof.
  induction d as [|[k x] d IH]; cbn [dict_setitem dict_lookup].
  - now rewrite String.eqb_refl.
  - destruct (String.eqb k key) eqn:Hk; cbn [dict_lookup]; now rewrite Hk.
Qed.

Lemma dict_lookup_setitem_other (d : list (string * value)) key v k' :
  k' <> key -> dict_lookup k' (dict_setitem d key v) = dict_lookup k' d.
Proof.
  intros Hne. induction d as [|[k x] d IH]; cbn [dict_setitem dict_lookup].
  - destruct (String.eqb_spec key k'); [congruence | reflexivity].
  - destruct (String.eqb_spec k key) as [->|Hk]; cbn [dict_lookup].
    + destruct (String.eqb_spec key k'); [congruence | reflexivity].
    + now rewrite IH.
Qed.

Lemma dict_keys_setitem (d : list (string * value)) key v :
  dict_keys (dict_setitem d key v)
  = if existsb (String.eqb key) (dict_keys d) then dict_keys d
    else (dict_keys d ++ [key])%list.
Proof.
  induction d as [|[k x] d IH]; [reflexivity|].
  cbn [dict_setitem dict_keys map fst existsb].
  rewrite (String.eqb_sym key k).
  destruct (String.eqb k key); cbn [map fst orb]; [reflexivity|].
  fold (dict_keys (dict_setitem d key v)). fold (dict_keys d). rewrite IH.
  now destruct (existsb (String.eqb key) (dict_keys d)).
Qed.

Lemma wf_dict_setitem (d : list (string * value)) key v :
  wf_dict d -> wf_dict (dict_setitem d key v).
Proof.
  unfold wf_dict. intros Hwf. rewrite dict_keys_setitem.
  destruct (existsb (String.eqb key) (dict_keys d)) eqn:He; [assumption|].
  apply NoDup_app; [assumption | repeat constructor; intros [] | ].
  intros k Hin [<-|[]].
  assert (Ht : existsb (String.eqb key) (dict_keys d) = true).
  { apply existsb_exists. exists key. split; [assumption | apply String.eqb_refl]. }
  congruence.
Qed.

(** X14. [validate_environment] fails exactly when the look-up of the
    URL fails, with the same exception.  Otherwise it returns the values
    it was given with [gappbuilders_ds_url] set to the URL found: every
    other key keeps its value, the keys keep their order (a new key comes
    last), and no key appears twice. *)
Theorem validate_environment_sets_url
    (get_from_dict_or_env : list (string * value) -> string -> string -> M value)
    (values : list (string * value)) :
  match get_from_dict_or_env values "gappbuilders_ds_url" "GAPP_BUILDER_DS_URL" with
  | (inl e, out) =>
      validate_environment get_from_dict_or_env values = (inl e, out)
  | (inr found, out) =>
      exists values',
        validate_environment get_from_dict_or_env values = (inr values', out)
        /\ dict_lookup "gappbuilders_ds_url" values' = Some found
        /\ (forall key, key <> "gappbuilders_ds_url" ->
                        dict_lookup key values' = dict_lookup key values)
        /\ dict_keys values'
           = (if existsb (String.eqb "gappbuilders_ds_url") (dict_keys values)
              then dict_keys values
              else (dict_keys values ++ ["gappbuilders_ds_url"])%list)
        /\ (wf_dict values -> wf_dict values')
  end.
Proof.
  unfold validate_environment.
  destruct (get_from_dict_or_env values "gappbuilders_ds_url" "GAPP_BUILDER_DS_URL")
    as [[e|found] out]; [reflexivity|].
  exists (dict_setitem values "gappbuilders_ds_url" found).
  split; [cbn; now rewrite app_nil_r|].
  split; [apply dict_lookup_setitem_same|].
  split; [intros key Hk; now apply dict_lookup_setitem_other|].
  split; [apply dict_keys_setitem | apply wf_dict_setitem].
Qed.
